(** * BackofficeCourse: the Course aggregate of the Backoffice context

    Shallow embedding of
    [src/Contexts/Backoffice/Courses/domain/BackofficeCourse.ts]:
    the aggregate, its constructor, the two static factories [create] and
    [fromPrimitives], and the instance method [toPrimitives].

    The classes the file imports ([AggregateRoot] and the three value
    objects) are not part of the sources at hand; they are modelled from the
    specification, and the validation rules of the value objects, which the
    specification leaves open, are a parameter of the development. *)

From Stdlib Require Import String List Bool.
Import ListNotations.

Local Open Scope string_scope.
Local Open Scope list_scope.

(** ** Expressions that may throw *)

(** The three fields of a course; each one has a value object of its own. *)
Inductive Field : Type :=
| FieldId
| FieldName
| FieldDuration.

Definition fieldName (f : Field) : string :=
  match f with
  | FieldId => "id"
  | FieldName => "name"
  | FieldDuration => "duration"
  end.

(** Modelled from the spec: the single error kind of the core, carrying the
    name of the offending field and a description of the violated rule. *)
Record ValidationError : Type := mkValidationError {
  field : string;
  rule : string
}.

Inductive Outcome (A : Type) : Type :=
| Returned (a : A)
| Thrown (e : ValidationError).

Arguments Returned {A} a.
Arguments Thrown {A} e.

(** Evaluating an expression yields its outcome together with the value-object
    constructors that were entered on the way, in evaluation order. *)
Record Exec (A : Type) : Type := mkExec {
  evaluated : list Field;
  outcome : Outcome A
}.

Arguments mkExec {A} evaluated outcome.
Arguments evaluated {A} e.
Arguments outcome {A} e.

Definition ret {A : Type} (a : A) : Exec A := mkExec [] (Returned a).

(** Sequencing: a throw in [m] propagates and the continuation is not run. *)
Definition bind {A B : Type} (m : Exec A) (k : A -> Exec B) : Exec B :=
  match outcome m with
  | Returned a => mkExec (evaluated m ++ evaluated (k a)) (outcome (k a))
  | Thrown e => mkExec (evaluated m) (Thrown e)
  end.

Notation "x <- m ;; k" := (bind m (fun x => k))
  (at level 61, m at next level, right associativity).

Definition succeeds {A : Type} (m : Exec A) : bool :=
  match outcome m with
  | Returned _ => true
  | Thrown _ => false
  end.

Definition fails {A : Type} (m : Exec A) : bool := negb (succeeds m).

(** ** Value objects *)

(** Modelled from the spec: a value object wraps the raw string it was
    constructed from and exposes it as [value]; there is no mutator. *)
Record ValueObject (f : Field) : Type := mkValueObject {
  value : string
}.

Arguments mkValueObject {f} value.
Arguments value {f} v.

Definition BackofficeCourseId : Type := ValueObject FieldId.
Definition BackofficeCourseName : Type := ValueObject FieldName.
Definition BackofficeCourseDuration : Type := ValueObject FieldDuration.

(** Modelled from the spec: the minimum rule the specification names for each
    of the three value objects, rejection of the empty string. *)
Definition nonEmpty (f : Field) (raw : string) : option string :=
  if String.eqb raw "" then Some "must not be empty" else None.

(** ** Domain events and the aggregate-root base *)

(** Modelled from the spec: a domain event records a fact about one
    aggregate, referenced by its identifier. *)
Record DomainEvent : Type := mkDomainEvent {
  eventName : string;
  aggregateId : string
}.

Module AggregateRoot.

(** Modelled from the spec: the base class [AggregateRoot], which owns the
    pending domain events of one aggregate instance. *)
Record t : Type := mk {
  domainEvents : list DomainEvent
}.

(** Modelled from the spec: [super()] starts with no pending event. *)
Definition new : t := mk [].

(** Modelled from the spec: [recordEvent] appends to the pending list. *)
Definition recordEvent (event : DomainEvent) (this : t) : unit * t :=
  (tt, mk (domainEvents this ++ [event])).

(** Modelled from the spec: [pullEvents] returns the pending list and
    clears it. *)
Definition pullEvents (this : t) : list DomainEvent * t :=
  (domainEvents this, mk []).

End AggregateRoot.

(** ** The aggregate *)

Module PlainData.

(** The parameter type of [fromPrimitives] and the shape returned by
    [toPrimitives]. *)
Record t : Type := mk {
  id : string;
  name : string;
  duration : string
}.

End PlainData.

(** [class BackofficeCourse extends AggregateRoot] with its three readonly
    fields; [root] is the inherited part of the object. *)
Record BackofficeCourse : Type := mkBackofficeCourse {
  root : AggregateRoot.t;
  id : BackofficeCourseId;
  name : BackofficeCourseName;
  duration : BackofficeCourseDuration
}.

(** [constructor(id, name, duration)]: [super()], then the three
    assignments. *)
Definition new_BackofficeCourse
    (id : BackofficeCourseId) (name : BackofficeCourseName)
    (duration : BackofficeCourseDuration) : BackofficeCourse :=
  {| root := AggregateRoot.new; id := id; name := name; duration := duration |}.

(** [static create(id, name, duration)]. *)
Definition create
    (id : BackofficeCourseId) (name : BackofficeCourseName)
    (duration : BackofficeCourseDuration) : Exec BackofficeCourse :=
  let course := new_BackofficeCourse id name duration in
  ret course.

(** An instance method receives [this] and hands it back with its result. *)
Definition Method (A : Type) : Type := BackofficeCourse -> A * BackofficeCourse.

(** [toPrimitives()]. *)
Definition toPrimitives : Method PlainData.t :=
  fun this =>
    ({| PlainData.id := value (id this);
        PlainData.name := value (name this);
        PlainData.duration := value (duration this) |},
     this).

(** The two methods inherited from the base act on the inherited part. *)
Definition inherited {A : Type} (m : AggregateRoot.t -> A * AggregateRoot.t)
  : Method A :=
  fun this =>
    let (a, root') := m (root this) in
    (a, {| root := root'; id := id this; name := name this;
           duration := duration this |}).

Definition pullEvents : Method (list DomainEvent) :=
  inherited AggregateRoot.pullEvents.

Definition recordEvent (event : DomainEvent) : Method unit :=
  inherited (AggregateRoot.recordEvent event).

(** Every operation an instance offers, and its effect on the instance. *)
Inductive Operation : Type :=
| ToPrimitives
| PullEvents
| RecordEvent (event : DomainEvent).

Definition perform (op : Operation) (this : BackofficeCourse) : BackofficeCourse :=
  match op with
  | ToPrimitives => snd (toPrimitives this)
  | PullEvents => snd (pullEvents this)
  | RecordEvent event => snd (recordEvent event this)
  end.

Definition performAll (ops : list Operation) (this : BackofficeCourse)
  : BackofficeCourse :=
  fold_left (fun course op => perform op course) ops this.

Section Validation.

(** The rule each value object checks at construction: [violated f raw] is
    the description of the rule that [raw] breaks for field [f], if any. *)
Variable violated : Field -> string -> option string.

(** Modelled from the spec: a value-object constructor either throws a
    [ValidationError] for its field or returns the wrapper of the raw
    string. *)
Definition construct (f : Field) (raw : string) : Exec (ValueObject f) :=
  mkExec [f]
    match violated f raw with
    | Some why => Thrown (mkValidationError (fieldName f) why)
    | None => Returned (mkValueObject raw)
    end.

Definition new_BackofficeCourseId (raw : string) : Exec BackofficeCourseId :=
  construct FieldId raw.

Definition new_BackofficeCourseName (raw : string) : Exec BackofficeCourseName :=
  construct FieldName raw.

Definition new_BackofficeCourseDuration (raw : string)
  : Exec BackofficeCourseDuration :=
  construct FieldDuration raw.

(** [static fromPrimitives(plainData)]: the arguments of the constructor
    call are evaluated from left to right. *)
Definition fromPrimitives (plainData : PlainData.t) : Exec BackofficeCourse :=
  id <- new_BackofficeCourseId (PlainData.id plainData) ;;
  name <- new_BackofficeCourseName (PlainData.name plainData) ;;
  duration <- new_BackofficeCourseDuration (PlainData.duration plainData) ;;
  ret (new_BackofficeCourse id name duration).

(** The call [BackofficeCourse.create(new BackofficeCourseId(a),
    new BackofficeCourseName(b), new BackofficeCourseDuration(c))]. *)
Definition createFromRaw (a b c : string) : Exec BackofficeCourse :=
  id <- new_BackofficeCourseId a ;;
  name <- new_BackofficeCourseName b ;;
  duration <- new_BackofficeCourseDuration c ;;
  create id name duration.

(** A plain record is accepted when each of the three constructors returns
    on its field. *)
Definition accepted (plainData : PlainData.t) : bool :=
  succeeds (new_BackofficeCourseId (PlainData.id plainData))
  && succeeds (new_BackofficeCourseName (PlainData.name plainData))
  && succeeds (new_BackofficeCourseDuration (PlainData.duration plainData)).

End Validation.

(** * Properties *)

(** ** The evaluation monad *)

Lemma bind_ret_l {A B : Type} (a : A) (k : A -> Exec B) :
  bind (ret a) k = k a.
Proof. unfold bind, ret; simpl. destruct (k a); reflexivity. Qed.

Lemma bind_ret_r {A : Type} (m : Exec A) : bind m ret = m.
Proof.
  destruct m as [tr [a | e]]; unfold bind, ret; simpl;
    [rewrite app_nil_r |]; reflexivity.
Qed.

Lemma bind_assoc {A B C : Type} (m : Exec A) (k : A -> Exec B) (h : B -> Exec C) :
  bind (bind m k) h = bind m (fun a => bind (k a) h).
Proof.
  destruct m as [tr [a | e]]; unfold bind; simpl; [| reflexivity].
  destruct (k a) as [tr' [b | e]]; simpl; [| reflexivity].
  rewrite app_assoc. reflexivity.
Qed.

Lemma bind_returned {A B : Type} (m : Exec A) (k : A -> Exec B) (a : A) :
  outcome m = Returned a ->
  bind m k = mkExec (evaluated m ++ evaluated (k a)) (outcome (k a)).
Proof. intros H. unfold bind. rewrite H. reflexivity. Qed.

Lemma bind_thrown {A B : Type} (m : Exec A) (k : A -> Exec B) (e : ValidationError) :
  outcome m = Thrown e ->
  bind m k = mkExec (evaluated m) (Thrown e).
Proof. intros H. unfold bind. rewrite H. reflexivity. Qed.

Lemma fails_thrown {A : Type} (m : Exec A) :
  fails m = true <-> exists e, outcome m = Thrown e.
Proof.
  unfold fails, succeeds. destruct (outcome m) as [a | e]; simpl; split.
  - discriminate.
  - intros [e H]. discriminate.
  - intros _. exists e. reflexivity.
  - reflexivity.
Qed.

Lemma succeeds_returned {A : Type} (m : Exec A) :
  succeeds m = true <-> exists a, outcome m = Returned a.
Proof.
  unfold succeeds. destruct (outcome m) as [a | e]; split.
  - intros _. exists a. reflexivity.
  - reflexivity.
  - discriminate.
  - intros [a H]. discriminate.
Qed.

Lemma fails_succeeds {A : Type} (m : Exec A) :
  fails m = false <-> succeeds m = true.
Proof. unfold fails. destruct (succeeds m); simpl; split; congruence. Qed.

(** ** Inherited methods leave the three fields alone *)

Lemma inherited_fields {A : Type} (m : AggregateRoot.t -> A * AggregateRoot.t)
    (this : BackofficeCourse) :
  id (snd (inherited m this)) = id this
  /\ name (snd (inherited m this)) = name this
  /\ duration (snd (inherited m this)) = duration this.
Proof. unfold inherited. destruct (m (root this)); simpl. auto. Qed.

Lemma perform_fields (op : Operation) (this : BackofficeCourse) :
  id (perform op this) = id this
  /\ name (perform op this) = name this
  /\ duration (perform op this) = duration this.
Proof.
  destruct op; unfold perform.
  - simpl. auto.
  - exact (inherited_fields AggregateRoot.pullEvents this).
  - exact (inherited_fields (AggregateRoot.recordEvent event) this).
Qed.

Lemma new_BackofficeCourse_pending
    (i : BackofficeCourseId) (n : BackofficeCourseName)
    (d : BackofficeCourseDuration) :
  pullEvents (new_BackofficeCourse i n d) = ([], new_BackofficeCourse i n d).
Proof. reflexivity. Qed.

Lemma create_returns
    (i : BackofficeCourseId) (n : BackofficeCourseName)
    (d : BackofficeCourseDuration) :
  create i n d = mkExec [] (Returned (new_BackofficeCourse i n d)).
Proof. reflexivity. Qed.

Section ValidationProperties.

Variable violated : Field -> string -> option string.

Local Abbreviation newId := (new_BackofficeCourseId violated).
Local Abbreviation newName := (new_BackofficeCourseName violated).
Local Abbreviation newDuration := (new_BackofficeCourseDuration violated).

(** ** Value-object constructors *)

Lemma construct_evaluated (f : Field) (raw : string) :
  evaluated (construct violated f raw) = [f].
Proof. reflexivity. Qed.

Lemma construct_returned (f : Field) (raw : string) (v : ValueObject f) :
  outcome (construct violated f raw) = Returned v -> v = mkValueObject raw.
Proof.
  unfold construct; simpl. destruct (violated f raw); congruence.
Qed.

Lemma construct_succeeds (f : Field) (raw : string) :
  succeeds (construct violated f raw) = true ->
  outcome (construct violated f raw) = Returned (mkValueObject raw).
Proof.
  unfold succeeds, construct; simpl. destruct (violated f raw);
    [discriminate | reflexivity].
Qed.

Lemma construct_thrown (f : Field) (raw : string) (e : ValidationError) :
  outcome (construct violated f raw) = Thrown e -> field e = fieldName f.
Proof.
  unfold construct; simpl. destruct (violated f raw); intros H;
    inversion H; reflexivity.
Qed.

(** ** The two factories, case by case *)

Lemma fromPrimitives_id_thrown (r : PlainData.t) (e : ValidationError) :
  outcome (newId (PlainData.id r)) = Thrown e ->
  fromPrimitives violated r = mkExec [FieldId] (Thrown e).
Proof.
  intros H. unfold fromPrimitives. rewrite (bind_thrown _ _ e H). reflexivity.
Qed.

Lemma fromPrimitives_name_thrown (r : PlainData.t) (e : ValidationError) :
  succeeds (newId (PlainData.id r)) = true ->
  outcome (newName (PlainData.name r)) = Thrown e ->
  fromPrimitives violated r = mkExec [FieldId; FieldName] (Thrown e).
Proof.
  intros Hi Hn. unfold fromPrimitives.
  rewrite (bind_returned _ _ _ (construct_succeeds _ _ Hi)).
  rewrite (bind_thrown _ _ e Hn). reflexivity.
Qed.

Lemma fromPrimitives_duration_thrown (r : PlainData.t) (e : ValidationError) :
  succeeds (newId (PlainData.id r)) = true ->
  succeeds (newName (PlainData.name r)) = true ->
  outcome (newDuration (PlainData.duration r)) = Thrown e ->
  fromPrimitives violated r = mkExec [FieldId; FieldName; FieldDuration] (Thrown e).
Proof.
  intros Hi Hn Hd. unfold fromPrimitives.
  rewrite (bind_returned _ _ _ (construct_succeeds _ _ Hi)).
  rewrite (bind_returned _ _ _ (construct_succeeds _ _ Hn)).
  rewrite (bind_thrown _ _ e Hd). reflexivity.
Qed.

Lemma fromPrimitives_returned (r : PlainData.t) :
  succeeds (newId (PlainData.id r)) = true ->
  succeeds (newName (PlainData.name r)) = true ->
  succeeds (newDuration (PlainData.duration r)) = true ->
  fromPrimitives violated r =
  mkExec [FieldId; FieldName; FieldDuration]
    (Returned (new_BackofficeCourse
                 (mkValueObject (PlainData.id r))
                 (mkValueObject (PlainData.name r))
                 (mkValueObject (PlainData.duration r)))).
Proof.
  intros Hi Hn Hd. unfold fromPrimitives.
  rewrite (bind_returned _ _ _ (construct_succeeds _ _ Hi)).
  rewrite (bind_returned _ _ _ (construct_succeeds _ _ Hn)).
  rewrite (bind_returned _ _ _ (construct_succeeds _ _ Hd)).
  reflexivity.
Qed.

Lemma createFromRaw_returned (a b c : string) :
  succeeds (newId a) = true ->
  succeeds (newName b) = true ->
  succeeds (newDuration c) = true ->
  createFromRaw violated a b c =
  mkExec [FieldId; FieldName; FieldDuration]
    (Returned (new_BackofficeCourse
                 (mkValueObject a) (mkValueObject b) (mkValueObject c))).
Proof.
  intros Hi Hn Hd. unfold createFromRaw.
  rewrite (bind_returned _ _ _ (construct_succeeds _ _ Hi)).
  rewrite (bind_returned _ _ _ (construct_succeeds _ _ Hn)).
  rewrite (bind_returned _ _ _ (construct_succeeds _ _ Hd)).
  reflexivity.
Qed.

Lemma accepted_fields (r : PlainData.t) :
  accepted violated r = true ->
  succeeds (newId (PlainData.id r)) = true
  /\ succeeds (newName (PlainData.name r)) = true
  /\ succeeds (newDuration (PlainData.duration r)) = true.
Proof.
  unfold accepted. intros H.
  apply andb_true_iff in H as [H Hd]. apply andb_true_iff in H as [Hi Hn].
  auto.
Qed.

(** ** Rehydration *)

(** C2: for every plain record whose three fields pass value-object
    validation, [fromPrimitives] returns an aggregate with no pending domain
    event: [pullEvents] on the result returns the empty list. *)
Theorem fromPrimitives_no_pending_event (r : PlainData.t) :
  accepted violated r = true ->
  exists course,
    outcome (fromPrimitives violated r) = Returned course
    /\ fst (pullEvents course) = [].
Proof.
  intros H. destruct (accepted_fields r H) as (Hi & Hn & Hd).
  rewrite (fromPrimitives_returned r Hi Hn Hd). cbn [outcome].
  eexists. split; [reflexivity |].
  rewrite new_BackofficeCourse_pending. reflexivity.
Qed.

(** C4: for every plain record [r] whose three fields pass value-object
    validation, [fromPrimitives r] returns a course whose [toPrimitives()]
    is [r] again. *)
Theorem fromPrimitives_toPrimitives (r : PlainData.t) :
  accepted violated r = true ->
  exists course,
    outcome (fromPrimitives violated r) = Returned course
    /\ fst (toPrimitives course) = r.
Proof.
  intros H. destruct (accepted_fields r H) as (Hi & Hn & Hd).
  rewrite (fromPrimitives_returned r Hi Hn Hd). cbn [outcome].
  eexists. split; [reflexivity |].
  destruct r; reflexivity.
Qed.

(** C5: [fromPrimitives] throws a [ValidationError] exactly when the
    constructor of at least one of the three fields throws on its field of
    the record; when all three constructors return, it returns a course. *)
Theorem fromPrimitives_throws_iff (r : PlainData.t) :
  ((exists e, outcome (fromPrimitives violated r) = Thrown e) <->
   (fails (newId (PlainData.id r)) = true
    \/ fails (newName (PlainData.name r)) = true
    \/ fails (newDuration (PlainData.duration r)) = true))
  /\ (succeeds (newId (PlainData.id r)) = true ->
      succeeds (newName (PlainData.name r)) = true ->
      succeeds (newDuration (PlainData.duration r)) = true ->
      exists course, outcome (fromPrimitives violated r) = Returned course).
Proof.
  split.
  - destruct (succeeds (newId (PlainData.id r))) eqn:Hi.
    + destruct (succeeds (newName (PlainData.name r))) eqn:Hn.
      * destruct (succeeds (newDuration (PlainData.duration r))) eqn:Hd.
        -- rewrite (fromPrimitives_returned r Hi Hn Hd). simpl.
           unfold fails. rewrite Hi, Hn, Hd. simpl. split.
           ++ intros [e He]. discriminate.
           ++ intros [F | [F | F]]; discriminate.
        -- assert (Hf : fails (newDuration (PlainData.duration r)) = true)
             by (unfold fails; rewrite Hd; reflexivity).
           split; [auto |]. intros _.
           destruct (proj1 (fails_thrown _) Hf) as [e He].
           exists e. rewrite (fromPrimitives_duration_thrown r e Hi Hn He).
           reflexivity.
      * assert (Hf : fails (newName (PlainData.name r)) = true)
          by (unfold fails; rewrite Hn; reflexivity).
        split; [auto |]. intros _.
        destruct (proj1 (fails_thrown _) Hf) as [e He].
        exists e. rewrite (fromPrimitives_name_thrown r e Hi He). reflexivity.
    + assert (Hf : fails (newId (PlainData.id r)) = true)
        by (unfold fails; rewrite Hi; reflexivity).
      split; [auto |]. intros _.
      destruct (proj1 (fails_thrown _) Hf) as [e He].
      exists e. rewrite (fromPrimitives_id_thrown r e He). reflexivity.
  - intros Hi Hn Hd. rewrite (fromPrimitives_returned r Hi Hn Hd). simpl.
    eexists. reflexivity.
Qed.

(** C10: [fromPrimitives] validates in the order id, name, duration.  When
    the id constructor throws, its error is the one raised and no other
    constructor is entered; when the id passes and the name constructor
    throws, the name error is raised and the duration constructor is not
    entered; the duration error is raised only after both others passed.
    What the later fields hold plays no part. *)
Theorem fromPrimitives_validation_order (r : PlainData.t) :
  (forall e,
      outcome (newId (PlainData.id r)) = Thrown e ->
      outcome (fromPrimitives violated r) = Thrown e
      /\ field e = "id"
      /\ evaluated (fromPrimitives violated r) = [FieldId])
  /\ (forall e,
        succeeds (newId (PlainData.id r)) = true ->
        outcome (newName (PlainData.name r)) = Thrown e ->
        outcome (fromPrimitives violated r) = Thrown e
        /\ field e = "name"
        /\ evaluated (fromPrimitives violated r) = [FieldId; FieldName])
  /\ (forall e,
        succeeds (newId (PlainData.id r)) = true ->
        succeeds (newName (PlainData.name r)) = true ->
        outcome (newDuration (PlainData.duration r)) = Thrown e ->
        outcome (fromPrimitives violated r) = Thrown e
        /\ field e = "duration"
        /\ evaluated (fromPrimitives violated r)
           = [FieldId; FieldName; FieldDuration]).
Proof.
  split; [| split].
  - intros e He. rewrite (fromPrimitives_id_thrown r e He).
    repeat split. exact (construct_thrown FieldId _ e He).
  - intros e Hi He. rewrite (fromPrimitives_name_thrown r e Hi He).
    repeat split. exact (construct_thrown FieldName _ e He).
  - intros e Hi Hn He. rewrite (fromPrimitives_duration_thrown r e Hi Hn He).
    repeat split. exact (construct_thrown FieldDuration _ e He).
Qed.

(** ** Creation *)

(** C3: when the three constructors return value objects [i], [n], [d] on
    the raw strings [a], [b], [c], [create i n d] returns a course whose
    [toPrimitives()] is the record of the three raw strings, unchanged. *)
Theorem create_toPrimitives (a b c : string)
    (i : BackofficeCourseId) (n : BackofficeCourseName)
    (d : BackofficeCourseDuration) :
  outcome (newId a) = Returned i ->
  outcome (newName b) = Returned n ->
  outcome (newDuration c) = Returned d ->
  exists course,
    outcome (create i n d) = Returned course
    /\ fst (toPrimitives course) = PlainData.mk a b c.
Proof.
  intros Hi Hn Hd.
  rewrite (construct_returned _ _ _ Hi), (construct_returned _ _ _ Hn),
    (construct_returned _ _ _ Hd).
  eexists. split; reflexivity.
Qed.

(** C9: on raw strings [a], [b], [c] that the three constructors accept,
    [create] applied to the constructed value objects and [fromPrimitives]
    applied to the record of the raw strings both return, and the two
    courses have equal id, name and duration, hence equal
    [toPrimitives()]. *)
Theorem create_fromPrimitives_agree (a b c : string) :
  succeeds (newId a) = true ->
  succeeds (newName b) = true ->
  succeeds (newDuration c) = true ->
  exists created rehydrated,
    outcome (createFromRaw violated a b c) = Returned created
    /\ outcome (fromPrimitives violated (PlainData.mk a b c)) = Returned rehydrated
    /\ id created = id rehydrated
    /\ name created = name rehydrated
    /\ duration created = duration rehydrated
    /\ fst (toPrimitives created) = fst (toPrimitives rehydrated).
Proof.
  intros Hi Hn Hd.
  rewrite (createFromRaw_returned a b c Hi Hn Hd).
  rewrite (fromPrimitives_returned (PlainData.mk a b c) Hi Hn Hd).
  do 2 eexists. repeat split; reflexivity.
Qed.

End ValidationProperties.

(** [create] hands back the freshly constructed object as it is: nothing was
    recorded on it. *)
Lemma create_leaves_no_pending_event
    (i : BackofficeCourseId) (n : BackofficeCourseName)
    (d : BackofficeCourseDuration) :
  exists course,
    outcome (create i n d) = Returned course
    /\ pullEvents course = ([], course).
Proof.
  rewrite create_returns. cbn [outcome].
  eexists. split; [reflexivity |]. apply new_BackofficeCourse_pending.
Qed.

(** C1: [create] is documented to record that the course was created, so
    that the first [pullEvents()] on the new aggregate returns that one
    event.  The code records nothing: for the course abc-123 of the
    end-to-end scenario [create] returns, the fields are as given, and the
    first [pullEvents()] already returns the empty list. *)
Theorem create_records_no_event :
  exists course,
    outcome (createFromRaw nonEmpty "abc-123" "Rust Basics" "4weeks")
    = Returned course
    /\ fst (toPrimitives course)
       = PlainData.mk "abc-123" "Rust Basics" "4weeks"
    /\ fst (pullEvents course) = [].
Proof.
  eexists. split; [reflexivity |]. split; reflexivity.
Qed.

(** C6: [create] cannot fail.  Whatever the three value objects wrap, it
    enters no value-object constructor, so it validates nothing, and it
    returns a course holding exactly the three objects it was given. *)
Theorem create_cannot_fail
    (i : BackofficeCourseId) (n : BackofficeCourseName)
    (d : BackofficeCourseDuration) :
  evaluated (create i n d) = []
  /\ exists course,
      outcome (create i n d) = Returned course
      /\ id course = i /\ name course = n /\ duration course = d.
Proof.
  rewrite create_returns. split; [reflexivity |].
  eexists. repeat split.
Qed.

(** ** Instance methods *)

(** C7: a course is immutable after construction.  Whatever sequence of
    operations is performed on a course, be it [toPrimitives], [pullEvents]
    or [recordEvent], its id, name and duration are the ones it was built
    with. *)
Theorem fields_never_reassigned (ops : list Operation) (course : BackofficeCourse) :
  id (performAll ops course) = id course
  /\ name (performAll ops course) = name course
  /\ duration (performAll ops course) = duration course.
Proof.
  revert course. induction ops as [| op ops IH]; intros course.
  - repeat split.
  - unfold performAll in *. cbn [fold_left].
    destruct (IH (perform op course)) as (Hi & Hn & Hd).
    destruct (perform_fields op course) as (Hi' & Hn' & Hd').
    rewrite Hi, Hn, Hd. auto.
Qed.

(** C8: [toPrimitives()] is total and free of side effects.  It returns the
    record of the three wrapped strings and hands the aggregate back
    unchanged, fields and pending events alike, so a second call returns
    the same record. *)
Theorem toPrimitives_pure (this : BackofficeCourse) :
  fst (toPrimitives this)
  = PlainData.mk (value (id this)) (value (name this)) (value (duration this))
  /\ snd (toPrimitives this) = this
  /\ fst (toPrimitives (snd (toPrimitives this))) = fst (toPrimitives this).
Proof. repeat split. Qed.

(** ** The properties at work on the course of the end-to-end scenario *)

Lemma fromPrimitives_no_pending_event_witness :
  accepted nonEmpty (PlainData.mk "abc-123" "Rust Basics" "4weeks") = true
  /\ exists course,
      outcome (fromPrimitives nonEmpty
                 (PlainData.mk "abc-123" "Rust Basics" "4weeks"))
      = Returned course
      /\ fst (pullEvents course) = [].
Proof.
  split; [reflexivity |].
  apply (fromPrimitives_no_pending_event nonEmpty
           (PlainData.mk "abc-123" "Rust Basics" "4weeks")).
  reflexivity.
Defined.

Lemma fromPrimitives_toPrimitives_witness :
  accepted nonEmpty (PlainData.mk "abc-123" "Rust Basics" "4weeks") = true
  /\ exists course,
      outcome (fromPrimitives nonEmpty
                 (PlainData.mk "abc-123" "Rust Basics" "4weeks"))
      = Returned course
      /\ fst (toPrimitives course)
         = PlainData.mk "abc-123" "Rust Basics" "4weeks".
Proof.
  split; [reflexivity |].
  apply (fromPrimitives_toPrimitives nonEmpty
           (PlainData.mk "abc-123" "Rust Basics" "4weeks")).
  reflexivity.
Defined.

Lemma fromPrimitives_throws_iff_witness :
  (exists e,
      outcome (fromPrimitives nonEmpty (PlainData.mk "abc-123" "" "4weeks"))
      = Thrown e)
  /\ (exists course,
        outcome (fromPrimitives nonEmpty
                   (PlainData.mk "abc-123" "Rust Basics" "4weeks"))
        = Returned course).
Proof.
  split.
  - apply (proj1 (fromPrimitives_throws_iff nonEmpty
                    (PlainData.mk "abc-123" "" "4weeks"))).
    right. left. reflexivity.
  - apply (proj2 (fromPrimitives_throws_iff nonEmpty
                    (PlainData.mk "abc-123" "Rust Basics" "4weeks")));
      reflexivity.
Defined.

Lemma fromPrimitives_validation_order_witness :
  outcome (new_BackofficeCourseId nonEmpty "")
  = Thrown (mkValidationError "id" "must not be empty")
  /\ outcome (fromPrimitives nonEmpty (PlainData.mk "" "" ""))
     = Thrown (mkValidationError "id" "must not be empty")
  /\ evaluated (fromPrimitives nonEmpty (PlainData.mk "" "" "")) = [FieldId].
Proof.
  split; [reflexivity |].
  destruct (proj1 (fromPrimitives_validation_order nonEmpty
                     (PlainData.mk "" "" ""))
              (mkValidationError "id" "must not be empty") eq_refl)
    as (Ho & _ & He).
  split; assumption.
Defined.

Lemma create_toPrimitives_witness :
  outcome (new_BackofficeCourseId nonEmpty "abc-123")
  = Returned (mkValueObject "abc-123")
  /\ outcome (new_BackofficeCourseName nonEmpty "Rust Basics")
     = Returned (mkValueObject "Rust Basics")
  /\ outcome (new_BackofficeCourseDuration nonEmpty "4weeks")
     = Returned (mkValueObject "4weeks")
  /\ exists course,
      outcome (create (mkValueObject "abc-123") (mkValueObject "Rust Basics")
                 (mkValueObject "4weeks"))
      = Returned course
      /\ fst (toPrimitives course)
         = PlainData.mk "abc-123" "Rust Basics" "4weeks".
Proof.
  repeat (split; [reflexivity |]).
  apply (create_toPrimitives nonEmpty "abc-123" "Rust Basics" "4weeks");
    reflexivity.
Defined.

Lemma create_fromPrimitives_agree_witness :
  succeeds (new_BackofficeCourseId nonEmpty "abc-123") = true
  /\ succeeds (new_BackofficeCourseName nonEmpty "Rust Basics") = true
  /\ succeeds (new_BackofficeCourseDuration nonEmpty "4weeks") = true
  /\ exists created rehydrated,
      outcome (createFromRaw nonEmpty "abc-123" "Rust Basics" "4weeks")
      = Returned created
      /\ outcome (fromPrimitives nonEmpty
                    (PlainData.mk "abc-123" "Rust Basics" "4weeks"))
         = Returned rehydrated
      /\ id created = id rehydrated
      /\ name created = name rehydrated
      /\ duration created = duration rehydrated
      /\ fst (toPrimitives created) = fst (toPrimitives rehydrated).
Proof.
  repeat (split; [reflexivity |]).
  apply (create_fromPrimitives_agree nonEmpty "abc-123" "Rust Basics" "4weeks");
    reflexivity.
Defined.

(** * Further properties of the aggregate *)

Lemma wrap_value {f : Field} (v : ValueObject f) : mkValueObject (value v) = v.
Proof. destruct v; reflexivity. Qed.

Lemma performAll_fields (ops : list Operation) (this : BackofficeCourse) :
  id (performAll ops this) = id this
  /\ name (performAll ops this) = name this
  /\ duration (performAll ops this) = duration this.
Proof.
  revert this. induction ops as [| op ops IH]; intros this; [repeat split |].
  change (performAll (op :: ops) this) with (performAll ops (perform op this)).
  destruct (IH (perform op this)) as (Hi & Hn & Hd).
  destruct (perform_fields op this) as (Hi' & Hn' & Hd').
  repeat split; congruence.
Qed.

Section FactoryProperties.

Variable violated : Field -> string -> option string.

Local Abbreviation newId := (new_BackofficeCourseId violated).
Local Abbreviation newName := (new_BackofficeCourseName violated).
Local Abbreviation newDuration := (new_BackofficeCourseDuration violated).

(** Every run of [fromPrimitives] is one of four: the id constructor throws,
    or the name constructor does after the id passed, or the duration
    constructor does after both passed, or all three return. *)
Lemma fromPrimitives_cases (r : PlainData.t) :
  (exists e,
      outcome (newId (PlainData.id r)) = Thrown e
      /\ fromPrimitives violated r = mkExec [FieldId] (Thrown e))
  \/ (exists e,
        succeeds (newId (PlainData.id r)) = true
        /\ outcome (newName (PlainData.name r)) = Thrown e
        /\ fromPrimitives violated r = mkExec [FieldId; FieldName] (Thrown e))
  \/ (exists e,
        succeeds (newId (PlainData.id r)) = true
        /\ succeeds (newName (PlainData.name r)) = true
        /\ outcome (newDuration (PlainData.duration r)) = Thrown e
        /\ fromPrimitives violated r
           = mkExec [FieldId; FieldName; FieldDuration] (Thrown e))
  \/ (accepted violated r = true
      /\ fromPrimitives violated r
         = mkExec [FieldId; FieldName; FieldDuration]
             (Returned (new_BackofficeCourse
                          (mkValueObject (PlainData.id r))
                          (mkValueObject (PlainData.name r))
                          (mkValueObject (PlainData.duration r))))).
Proof.
  destruct (succeeds (newId (PlainData.id r))) eqn:Hi.
  - destruct (succeeds (newName (PlainData.name r))) eqn:Hn.
    + destruct (succeeds (newDuration (PlainData.duration r))) eqn:Hd.
      * right; right; right. split.
        -- unfold accepted. rewrite Hi, Hn, Hd. reflexivity.
        -- apply fromPrimitives_returned; assumption.
      * right; right; left.
        assert (Hf : fails (newDuration (PlainData.duration r)) = true)
          by (unfold fails; rewrite Hd; reflexivity).
        destruct (proj1 (fails_thrown _) Hf) as [e He]. exists e.
        repeat split; try assumption.
        apply fromPrimitives_duration_thrown; assumption.
    + right; left.
      assert (Hf : fails (newName (PlainData.name r)) = true)
        by (unfold fails; rewrite Hn; reflexivity).
      destruct (proj1 (fails_thrown _) Hf) as [e He]. exists e.
      repeat split; try assumption.
      apply fromPrimitives_name_thrown; assumption.
  - left.
    assert (Hf : fails (newId (PlainData.id r)) = true)
      by (unfold fails; rewrite Hi; reflexivity).
    destruct (proj1 (fails_thrown _) Hf) as [e He]. exists e.
    split; [assumption |]. apply fromPrimitives_id_thrown; assumption.
Qed.

(** In this code [create] adds nothing to the constructor, so creating from
    raw strings and rehydrating the record of the same strings are the same
    computation. *)
Lemma createFromRaw_fromPrimitives (a b c : string) :
  createFromRaw violated a b c = fromPrimitives violated (PlainData.mk a b c).
Proof.
  unfold createFromRaw, fromPrimitives, create. reflexivity.
Qed.

(** X1: serialising a course and rehydrating the record gives back a course
    with the same id, name and duration, provided the three wrapped strings
    pass validation; the pending events of the original are not carried
    over, the rehydrated course has none. *)
Theorem toPrimitives_fromPrimitives (this : BackofficeCourse) :
  accepted violated (fst (toPrimitives this)) = true ->
  exists rehydrated,
    outcome (fromPrimitives violated (fst (toPrimitives this)))
    = Returned rehydrated
    /\ id rehydrated = id this
    /\ name rehydrated = name this
    /\ duration rehydrated = duration this
    /\ fst (pullEvents rehydrated) = [].
Proof.
  intros H. destruct (accepted_fields violated _ H) as (Hi & Hn & Hd).
  rewrite (fromPrimitives_returned violated _ Hi Hn Hd). cbn [outcome].
  eexists. split; [reflexivity |].
  cbn [toPrimitives fst PlainData.id PlainData.name PlainData.duration].
  unfold new_BackofficeCourse. cbn [id name duration].
  rewrite !wrap_value. repeat split.
Qed.

(** X2: [fromPrimitives] never returns the same course for two different
    records: records that rehydrate to equal courses are equal. *)
Theorem fromPrimitives_injective (r1 r2 : PlainData.t) (course : BackofficeCourse) :
  outcome (fromPrimitives violated r1) = Returned course ->
  outcome (fromPrimitives violated r2) = Returned course ->
  r1 = r2.
Proof.
  intros H1 H2.
  destruct (fromPrimitives_cases r1)
    as [(e & _ & E) | [(e & _ & _ & E) | [(e & _ & _ & _ & E) | (_ & E)]]];
    rewrite E in H1; cbn [outcome] in H1; try discriminate.
  destruct (fromPrimitives_cases r2)
    as [(e & _ & E') | [(e & _ & _ & E') | [(e & _ & _ & _ & E') | (_ & E')]]];
    rewrite E' in H2; cbn [outcome] in H2; try discriminate.
  rewrite <- H2 in H1. injection H1 as Hi Hn Hd.
  destruct r1, r2; cbn in *. congruence.
Qed.

(** X3: when [fromPrimitives] throws, the error is never one of its own: it
    is the error of the first constructor, in the order id, name, duration,
    that throws on its field of the record, and every constructor before it
    returned. *)
Theorem fromPrimitives_error_origin (r : PlainData.t) (e : ValidationError) :
  outcome (fromPrimitives violated r) = Thrown e ->
  outcome (newId (PlainData.id r)) = Thrown e
  \/ (succeeds (newId (PlainData.id r)) = true
      /\ outcome (newName (PlainData.name r)) = Thrown e)
  \/ (succeeds (newId (PlainData.id r)) = true
      /\ succeeds (newName (PlainData.name r)) = true
      /\ outcome (newDuration (PlainData.duration r)) = Thrown e).
Proof.
  intros H.
  destruct (fromPrimitives_cases r)
    as [(e' & He & E) | [(e' & Hi & He & E)
        | [(e' & Hi & Hn & He & E) | (_ & E)]]];
    rewrite E in H; cbn [outcome] in H; try discriminate;
    injection H as <-; auto.
Qed.

(** X4: on every triple of raw strings, valid or not, constructing the
    value objects and calling [create] fails exactly as [fromPrimitives]
    does on the record of the same strings: the same constructors are
    entered in the same order and the same error, if any, is thrown. *)
Theorem create_fromPrimitives_same_failure (a b c : string) :
  evaluated (createFromRaw violated a b c)
  = evaluated (fromPrimitives violated (PlainData.mk a b c))
  /\ forall e,
      outcome (createFromRaw violated a b c) = Thrown e
      <-> outcome (fromPrimitives violated (PlainData.mk a b c)) = Thrown e.
Proof.
  rewrite createFromRaw_fromPrimitives. split; [reflexivity |].
  intros e. split; auto.
Qed.

End FactoryProperties.

(** X5: the record [toPrimitives()] returns depends on the three fields
    only.  After any sequence of operations on the course, recording and
    pulling events included, it returns the same record as before. *)
Theorem toPrimitives_stable (ops : list Operation) (this : BackofficeCourse) :
  fst (toPrimitives (performAll ops this)) = fst (toPrimitives this).
Proof.
  destruct (performAll_fields ops this) as (Hi & Hn & Hd).
  unfold toPrimitives. cbn [fst]. rewrite Hi, Hn, Hd. reflexivity.
Qed.

(** X6: [toPrimitives()] loses nothing of the fields: two courses return
    equal records exactly when they have equal id, name and duration; their
    pending events play no part. *)
Theorem toPrimitives_lossless (c1 c2 : BackofficeCourse) :
  fst (toPrimitives c1) = fst (toPrimitives c2)
  <-> id c1 = id c2 /\ name c1 = name c2 /\ duration c1 = duration c2.
Proof.
  unfold toPrimitives. cbn [fst]. split.
  - intros H. injection H as Hi Hn Hd.
    rewrite <- (wrap_value (id c1)), <- (wrap_value (id c2)),
      <- (wrap_value (name c1)), <- (wrap_value (name c2)),
      <- (wrap_value (duration c1)), <- (wrap_value (duration c2)).
    rewrite Hi, Hn, Hd. repeat split.
  - intros (Hi & Hn & Hd). rewrite Hi, Hn, Hd. reflexivity.
Qed.

(** ** The further properties at work *)

Lemma toPrimitives_fromPrimitives_witness :
  accepted nonEmpty
    (fst (toPrimitives
            (mkBackofficeCourse
               (AggregateRoot.mk [mkDomainEvent "course.created" "abc-123"])
               (mkValueObject "abc-123") (mkValueObject "Rust Basics")
               (mkValueObject "4weeks")))) = true
  /\ exists rehydrated,
      outcome (fromPrimitives nonEmpty
                 (fst (toPrimitives
                         (mkBackofficeCourse
                            (AggregateRoot.mk
                               [mkDomainEvent "course.created" "abc-123"])
                            (mkValueObject "abc-123")
                            (mkValueObject "Rust Basics")
                            (mkValueObject "4weeks")))))
      = Returned rehydrated
      /\ id rehydrated = mkValueObject "abc-123"
      /\ name rehydrated = mkValueObject "Rust Basics"
      /\ duration rehydrated = mkValueObject "4weeks"
      /\ fst (pullEvents rehydrated) = [].
Proof.
  split; [reflexivity |].
  apply (toPrimitives_fromPrimitives nonEmpty
           (mkBackofficeCourse
              (AggregateRoot.mk [mkDomainEvent "course.created" "abc-123"])
              (mkValueObject "abc-123") (mkValueObject "Rust Basics")
              (mkValueObject "4weeks"))).
  reflexivity.
Defined.

Lemma fromPrimitives_injective_witness :
  outcome (fromPrimitives nonEmpty (PlainData.mk "abc-123" "Rust Basics" "4weeks"))
  = Returned (new_BackofficeCourse (mkValueObject "abc-123")
                (mkValueObject "Rust Basics") (mkValueObject "4weeks"))
  /\ PlainData.mk "abc-123" "Rust Basics" "4weeks"
     = PlainData.mk "abc-123" "Rust Basics" "4weeks".
Proof.
  split; [reflexivity |].
  apply (fromPrimitives_injective nonEmpty
           (PlainData.mk "abc-123" "Rust Basics" "4weeks")
           (PlainData.mk "abc-123" "Rust Basics" "4weeks")
           (new_BackofficeCourse (mkValueObject "abc-123")
              (mkValueObject "Rust Basics") (mkValueObject "4weeks")));
    reflexivity.
Defined.

Lemma fromPrimitives_error_origin_witness :
  outcome (fromPrimitives nonEmpty (PlainData.mk "abc-123" "" ""))
  = Thrown (mkValidationError "name" "must not be empty")
  /\ (outcome (new_BackofficeCourseId nonEmpty "abc-123")
      = Thrown (mkValidationError "name" "must not be empty")
      \/ (succeeds (new_BackofficeCourseId nonEmpty "abc-123") = true
          /\ outcome (new_BackofficeCourseName nonEmpty "")
             = Thrown (mkValidationError "name" "must not be empty"))
      \/ (succeeds (new_BackofficeCourseId nonEmpty "abc-123") = true
          /\ succeeds (new_BackofficeCourseName nonEmpty "") = true
          /\ outcome (new_BackofficeCourseDuration nonEmpty "")
             = Thrown (mkValidationError "name" "must not be empty"))).
Proof.
  split; [reflexivity |].
  apply (fromPrimitives_error_origin nonEmpty (PlainData.mk "abc-123" "" "")
           (mkValidationError "name" "must not be empty")).
  reflexivity.
Defined.
